(** * Default safety hooks of the panda CAN gateway

    A shallow embedding of the two variants of the default safety modes,
    [panda/board/safety/safety_defaults_HKG.h] (forwarding with bus
    hysteresis) and [panda/board/safety/safety_defaults_test.h] (plain
    forwarding), and the properties of their hooks.

    C [int] values are integers of [Z]; the globals the hooks read and write
    are fields of an explicit state, threaded through the hooks by a small
    state monad. *)

From Stdlib Require Import ZArith List String Ascii Bool Lia.
Import ListNotations.

Open Scope Z_scope.

(** ** A state monad for the hooks *)

Definition M (S A : Type) : Type := S -> A * S.

Definition ret {S A : Type} (a : A) : M S A := fun s => (a, s).

Definition bind {S A B : Type} (c : M S A) (k : A -> M S B) : M S B :=
  fun s => let (a, s') := c s in k a s'.

Definition gets {S A : Type} (f : S -> A) : M S A := fun s => (f s, s).

Definition modify {S : Type} (f : S -> S) : M S unit := fun s => (tt, f s).

(** [if (b) { c }] with no [else] branch. *)
Definition when {S : Type} (b : bool) (c : M S unit) : M S unit :=
  if b then c else ret tt.

(** Run a computation of a sub-state inside a larger state. *)
Definition zoom {S T A : Type} (get : S -> T) (set : T -> S -> S)
  (c : M T A) : M S A :=
  fun s => let (a, t') := c (get s) in (a, set t' s).

Definition result {S A : Type} (c : M S A) (s : S) : A := fst (c s).
Definition exec {S A : Type} (c : M S A) (s : S) : S := snd (c s).

Declare Scope hook_scope.
Delimit Scope hook_scope with hook.
Notation "x <- c ;; k" := (bind c (fun x => k))
  (at level 61, c at next level, right associativity) : hook_scope.
Notation "c ;; k" := (bind c (fun _ => k))
  (at level 61, right associativity) : hook_scope.
Open Scope hook_scope.

(** ** Declarations shared by both variants *)

(** The values of [true] and [false] where a hook returns them as [int]. *)
Definition C_true : Z := 1.
Definition C_false : Z := 0.

(** A CAN frame: the bus it was received on, its identifier and payload. *)
Record CANPacket_t : Type := mkPacket {
  pkt_bus : Z;
  pkt_addr : Z;
  pkt_data : list Byte.byte
}.

(** Modelled from the spec: the macro [GET_BUS] is declared outside these
    files; it is the frame accessor returning the source bus index. *)
Definition GET_BUS (p : CANPacket_t) : Z := pkt_bus p.

(** Modelled from the spec: the macro [GET_ADDR] is declared outside these
    files; it is the frame accessor returning the numeric address. *)
Definition GET_ADDR (p : CANPacket_t) : Z := pkt_addr p.

Inductive ptr : Type :=
| NULL
| Ptr (a : N).

Record addr_checks : Type := mkAddrChecks {
  check : ptr;
  len : Z
}.

(** Modelled from the spec: the CAN mode constants are declared outside
    these files; [CAN_MODE_OBD_CAN2] is the OBD-on-secondary mode, and
    [CAN_MODE_NORMAL] stands for the mode the transport is in otherwise. *)
Inductive can_mode_t : Type :=
| CAN_MODE_NORMAL
| CAN_MODE_OBD_CAN2.

(** The board: the capability [has_obd], and the mode last given to
    [set_can_mode]. *)
Record board : Type := mkBoard {
  has_obd : bool;
  can_mode : can_mode_t
}.

(** The globals that the hooks use and that other files own: the safety
    latches, the board, and the text written by [puts]. *)
Record firmware : Type := mkFirmware {
  controls_allowed : bool;
  relay_malfunction : bool;
  current_board : board;
  console : list string
}.

Module Firmware.

Definition set_controls_allowed (v : bool) : M firmware unit :=
  modify (fun g => mkFirmware v (relay_malfunction g) (current_board g)
                     (console g)).

(** Modelled from the spec: [relay_malfunction_reset] is defined outside
    these files; it is the reset operation that clears the
    relay-malfunction latch. *)
Definition relay_malfunction_reset : M firmware unit :=
  modify (fun g => mkFirmware (controls_allowed g) false (current_board g)
                     (console g)).

(** Modelled from the spec: [current_board->set_can_mode] is defined
    outside these files; it is the mutator of the bus mode interface. *)
Definition set_can_mode (m : can_mode_t) : M firmware unit :=
  modify (fun g => mkFirmware (controls_allowed g) (relay_malfunction g)
                     (mkBoard (has_obd (current_board g)) m) (console g)).

Definition puts (msg : string) : M firmware unit :=
  modify (fun g => mkFirmware (controls_allowed g) (relay_malfunction g)
                     (current_board g) (console g ++ [msg])).

End Firmware.

(** The line feed that ends the strings given to [puts]. *)
Definition LF : string := String (ascii_of_nat 10) EmptyString.

(** The five entry points of a safety mode. *)
Record safety_hooks (S : Type) : Type := mkHooks {
  init : Z -> M S addr_checks;
  rx : CANPacket_t -> M S Z;
  tx : CANPacket_t -> M S Z;
  tx_lin : Z -> list Byte.byte -> Z -> M S Z;
  fwd : Z -> CANPacket_t -> M S Z
}.

Arguments init {S} _ _.
Arguments rx {S} _ _.
Arguments tx {S} _ _.
Arguments tx_lin {S} _ _ _ _.
Arguments fwd {S} _ _ _.

(** ** safety_defaults_HKG.h *)

Module HKG.

Record state : Type := mkState {
  HKG_forward_bus2 : bool;
  HKG_LKAS_bus0_cnt : Z;
  fw : firmware
}.

(** The initializers of the two globals of this file. *)
Definition initial (g : firmware) : state := mkState true 0 g.

Definition set_HKG_forward_bus2 (v : bool) : M state unit :=
  modify (fun s => mkState v (HKG_LKAS_bus0_cnt s) (fw s)).

Definition set_HKG_LKAS_bus0_cnt (v : Z) : M state unit :=
  modify (fun s => mkState (HKG_forward_bus2 s) v (fw s)).

Definition extern {A : Type} (c : M firmware A) : M state A :=
  zoom fw (fun g s => mkState (HKG_forward_bus2 s) (HKG_LKAS_bus0_cnt s) g) c.

Definition puts (msg : string) : M state unit := extern (Firmware.puts msg).
Definition set_controls_allowed (v : bool) : M state unit :=
  extern (Firmware.set_controls_allowed v).
Definition relay_malfunction_reset : M state unit :=
  extern Firmware.relay_malfunction_reset.

Definition default_rx_checks : addr_checks := mkAddrChecks NULL 0.

Definition msg_forwarding_disabled : string :=
  String.append "  LKAS on bus0: forwarding disabled" LF.
Definition msg_forwarding_enabled : string :=
  String.append "  LKAS on bus2 & not on bus0: forwarding enabled" LF.

(** [HKG_LKAS_bus0_cnt--] runs on a positive count only, so the [int] does
    not wrap around and the decrement is the one of [Z]. *)
Definition default_rx_hook (to_push : CANPacket_t) : M state Z :=
  let bus := GET_BUS to_push in
  let addr := GET_ADDR to_push in
  when (addr =? 832) (
    when (bus =? 0) (
      set_HKG_LKAS_bus0_cnt 10 ;;
      forward <- gets HKG_forward_bus2 ;;
      when forward (
        set_HKG_forward_bus2 false ;;
        puts msg_forwarding_disabled)) ;;
    when (bus =? 2) (
      cnt <- gets HKG_LKAS_bus0_cnt ;;
      if cnt >? 0 then
        set_HKG_LKAS_bus0_cnt (cnt - 1)
      else
        forward <- gets HKG_forward_bus2 ;;
        when (negb forward) (
          set_HKG_forward_bus2 true ;;
          puts msg_forwarding_enabled))) ;;
  ret C_true.

(** *** no output safety mode *)

Definition nooutput_init (param : Z) : M state addr_checks :=
  set_controls_allowed false ;;
  relay_malfunction_reset ;;
  ret default_rx_checks.

Definition nooutput_tx_hook (to_send : CANPacket_t) : M state Z :=
  ret C_false.

Definition nooutput_tx_lin_hook (lin_num : Z) (data : list Byte.byte)
  (len : Z) : M state Z :=
  ret C_false.

Definition default_fwd_hook (bus_num : Z) (to_fwd : CANPacket_t) : M state Z :=
  let bus_fwd := -1 in
  forward <- gets HKG_forward_bus2 ;;
  let bus_fwd :=
    if forward then
      let bus_fwd := if bus_num =? 0 then 2 else bus_fwd in
      let bus_fwd := if bus_num =? 2 then 0 else bus_fwd in
      bus_fwd
    else bus_fwd in
  ret bus_fwd.

Definition nooutput_hooks : safety_hooks state :=
  mkHooks state nooutput_init default_rx_hook nooutput_tx_hook
    nooutput_tx_lin_hook default_fwd_hook.

(** *** all output safety mode *)

Definition alloutput_init (param : Z) : M state addr_checks :=
  set_controls_allowed true ;;
  relay_malfunction_reset ;;
  ret default_rx_checks.

Definition alloutput_tx_hook (to_send : CANPacket_t) : M state Z :=
  ret C_true.

Definition alloutput_tx_lin_hook (lin_num : Z) (data : list Byte.byte)
  (len : Z) : M state Z :=
  ret C_true.

Definition alloutput_hooks : safety_hooks state :=
  mkHooks state alloutput_init default_rx_hook alloutput_tx_hook
    alloutput_tx_lin_hook default_fwd_hook.

(** *** Runs of the receive filter *)

(** The state after the frames of [ps] were received in order. *)
Definition rx_all (ps : list CANPacket_t) (s : state) : state :=
  fold_left (fun s p => exec (default_rx_hook p) s) ps s.

(** The states after each prefix of [ps], the start state first. *)
Fixpoint rx_trace (ps : list CANPacket_t) (s : state) : list state :=
  match ps with
  | [] => [s]
  | p :: ps' => s :: rx_trace ps' (exec (default_rx_hook p) s)
  end.

(** What the hysteresis consists of: the flag and the hold count. *)
Definition hysteresis (s : state) : bool * Z :=
  (HKG_forward_bus2 s, HKG_LKAS_bus0_cnt s).

(** The two safety modes of this file, and the calls that the dispatcher
    makes into the active one. *)
Inductive mode : Type :=
| NoOutput
| AllOutput.

Definition hooks_of (m : mode) : safety_hooks state :=
  match m with
  | NoOutput => nooutput_hooks
  | AllOutput => alloutput_hooks
  end.

Inductive call : Type :=
| CallInit (param : Z)
| CallRx (p : CANPacket_t)
| CallTx (p : CANPacket_t)
| CallTxLin (lin_num : Z) (data : list Byte.byte) (len : Z)
| CallFwd (bus_num : Z) (p : CANPacket_t).

(** The state after one call into the hooks of mode [m]. *)
Definition step (s : state) (mc : mode * call) : state :=
  let h := hooks_of (fst mc) in
  match snd mc with
  | CallInit param => exec (init h param) s
  | CallRx p => exec (rx h p) s
  | CallTx p => exec (tx h p) s
  | CallTxLin lin_num data len => exec (tx_lin h lin_num data len) s
  | CallFwd bus_num p => exec (fwd h bus_num p) s
  end.

Definition run (cs : list (mode * call)) (s : state) : state :=
  fold_left step cs s.

End HKG.

(** ** safety_defaults_test.h *)

Module Test.

Definition state : Type := firmware.

Import Firmware.

Definition default_rx_checks : addr_checks := mkAddrChecks NULL 0.

Definition default_rx_hook (to_push : CANPacket_t) : M state Z :=
  ret C_true.

(** *** no output safety mode *)

Definition nooutput_init (param : Z) : M state addr_checks :=
  set_controls_allowed false ;;
  relay_malfunction_reset ;;
  obd <- gets (fun g => has_obd (current_board g)) ;;
  when obd (
    set_can_mode CAN_MODE_OBD_CAN2 ;;
    puts (String.append "setting can mode obd" LF)) ;;
  ret default_rx_checks.

Definition nooutput_tx_hook (to_send : CANPacket_t) : M state Z :=
  ret C_false.

Definition nooutput_tx_lin_hook (lin_num : Z) (data : list Byte.byte)
  (len : Z) : M state Z :=
  ret C_false.

Definition default_fwd_hook (bus_num : Z) (to_fwd : CANPacket_t) : M state Z :=
  let bus_fwd := -1 in
  let addr := GET_ADDR to_fwd in
  let bus_fwd := if bus_num =? 0 then 2 else bus_fwd in
  let bus_fwd := if bus_num =? 1 then 20 else bus_fwd in
  let bus_fwd :=
    if (bus_num =? 2) && negb (addr =? 832) && negb (addr =? 1157)
    then 0 else bus_fwd in
  ret bus_fwd.

Definition nooutput_hooks : safety_hooks state :=
  mkHooks state nooutput_init default_rx_hook nooutput_tx_hook
    nooutput_tx_lin_hook default_fwd_hook.

(** *** all output safety mode *)

Definition alloutput_init (param : Z) : M state addr_checks :=
  set_controls_allowed true ;;
  relay_malfunction_reset ;;
  ret default_rx_checks.

Definition alloutput_tx_hook (to_send : CANPacket_t) : M state Z :=
  ret C_true.

Definition alloutput_tx_lin_hook (lin_num : Z) (data : list Byte.byte)
  (len : Z) : M state Z :=
  ret C_true.

Definition alloutput_hooks : safety_hooks state :=
  mkHooks state alloutput_init default_rx_hook alloutput_tx_hook
    alloutput_tx_lin_hook default_fwd_hook.

End Test.

(** ** Frames and states used in the statements *)

(** A frame with the watched address 832 (LKAS11). *)
Definition lkas11 (bus : Z) (d : list Byte.byte) : CANPacket_t :=
  mkPacket bus 832 d.

(** The globals of other files at start-up, on a board without OBD. *)
Definition firmware0 : firmware :=
  mkFirmware false false (mkBoard false CAN_MODE_NORMAL) [].

(** ** Frames, calls and states used in the further properties *)

(** The frames that [HKG.default_rx_hook] acts on: address 832 on bus 0 or
    on bus 2. *)
Definition watched (p : CANPacket_t) : bool :=
  (GET_ADDR p =? 832) && ((GET_BUS p =? 0) || (GET_BUS p =? 2)).

(** The frames that stop the relay: address 832 on bus 0. *)
Definition lkas11_on_bus0 (p : CANPacket_t) : bool :=
  (GET_ADDR p =? 832) && (GET_BUS p =? 0).

(** The frames given to the receive filter in a sequence of calls. *)
Definition rx_frames (cs : list (HKG.mode * HKG.call)) : list CANPacket_t :=
  flat_map (fun mc => match snd mc with
                      | HKG.CallRx p => [p]
                      | _ => []
                      end) cs.

(** The hold count is between 0 and the hold value, and it is 0 while the
    relay runs. *)
Definition hold_invariant (s : HKG.state) : Prop :=
  0 <= HKG.HKG_LKAS_bus0_cnt s <= 10
  /\ (HKG.HKG_forward_bus2 s = true -> HKG.HKG_LKAS_bus0_cnt s = 0).

(** The last message on the console names the value of the flag; [l] is
    what was written after the text [before]. *)
Definition console_tracks_flag (before : list string) (s : HKG.state) : Prop :=
  exists l : list string,
    console (HKG.fw s) = before ++ l
    /\ last l HKG.msg_forwarding_enabled
       = (if HKG.HKG_forward_bus2 s then HKG.msg_forwarding_enabled
          else HKG.msg_forwarding_disabled).

(** The text that [Test.nooutput_init] writes on a board with OBD. *)
Definition msg_can_mode_obd : string :=
  String.append "setting can mode obd" LF.

(** * Properties *)

Ltac run_hook :=
  cbv [result exec bind ret gets modify when zoom
       HKG.default_rx_hook HKG.default_fwd_hook HKG.extern HKG.puts
       HKG.set_HKG_forward_bus2 HKG.set_HKG_LKAS_bus0_cnt
       HKG.set_controls_allowed HKG.relay_malfunction_reset
       HKG.nooutput_init HKG.alloutput_init
       HKG.nooutput_tx_hook HKG.nooutput_tx_lin_hook
       HKG.alloutput_tx_hook HKG.alloutput_tx_lin_hook
       HKG.nooutput_hooks HKG.alloutput_hooks HKG.hooks_of
       Test.default_rx_hook Test.default_fwd_hook
       Test.nooutput_init Test.alloutput_init
       Test.nooutput_tx_hook Test.nooutput_tx_lin_hook
       Test.alloutput_tx_hook Test.alloutput_tx_lin_hook
       Test.nooutput_hooks Test.alloutput_hooks
       Firmware.puts Firmware.set_controls_allowed
       Firmware.relay_malfunction_reset Firmware.set_can_mode
       init rx tx tx_lin fwd GET_BUS GET_ADDR fst snd].

Ltac fields :=
  cbn [pkt_bus pkt_addr pkt_data
       HKG.HKG_forward_bus2 HKG.HKG_LKAS_bus0_cnt HKG.fw
       controls_allowed relay_malfunction current_board console
       has_obd can_mode negb].

Example hkg_rx_bus0_from_start :
  HKG.hysteresis (exec (HKG.default_rx_hook (lkas11 0 [])) (HKG.initial firmware0))
  = (false, 10).
Proof. reflexivity. Qed.

Example hkg_rx_console_after_round_trip :
  console (HKG.fw (HKG.rx_all (lkas11 0 [] :: repeat (lkas11 2 []) 11)
                     (HKG.initial firmware0)))
  = [HKG.msg_forwarding_disabled; HKG.msg_forwarding_enabled].
Proof. reflexivity. Qed.

Example test_fwd_999 :
  result (Test.default_fwd_hook 2 (mkPacket 2 999 [])) firmware0 = 0.
Proof. reflexivity. Qed.

(** ** The hysteresis of the receive filter (safety_defaults_HKG.h) *)

(** One receive of the watched address on bus 0 arms the hold count and
    stops the relay, whatever the flag and the count were. *)
Lemma hkg_rx_bus0_arms (d : list Byte.byte) (s : HKG.state) :
  HKG.hysteresis (exec (HKG.default_rx_hook (lkas11 0 d)) s) = (false, 10).
Proof.
  destruct s as [[|] n g]; reflexivity.
Qed.

(** One receive of the watched address on bus 2 while the count is
    positive takes one off the count and leaves the flag. *)
Lemma hkg_rx_bus2_counts_down (d : list Byte.byte) (s : HKG.state) :
  0 < HKG.HKG_LKAS_bus0_cnt s ->
  exec (HKG.default_rx_hook (lkas11 2 d)) s
  = HKG.mkState (HKG.HKG_forward_bus2 s) (HKG.HKG_LKAS_bus0_cnt s - 1) (HKG.fw s).
Proof.
  intros Hpos. destruct s as [f n g]; cbn in Hpos.
  run_hook; cbn.
  destruct (Z.gtb_spec n 0) as [_|Hle]; [|lia].
  destruct g; reflexivity.
Qed.

(** While the relay is stopped, [k] receives of the watched address on
    bus 2 take [k] off a hold count of at least [k] and leave it stopped. *)
Lemma hkg_rx_bus2_hold (ds : list (list Byte.byte)) :
  forall s : HKG.state,
    HKG.HKG_forward_bus2 s = false ->
    Z.of_nat (List.length ds) <= HKG.HKG_LKAS_bus0_cnt s ->
    HKG.hysteresis (HKG.rx_all (map (lkas11 2) ds) s)
    = (false, HKG.HKG_LKAS_bus0_cnt s - Z.of_nat (List.length ds)).
Proof.
  induction ds as [|d ds IH]; intros s Hoff Hlen.
  - cbn. unfold HKG.hysteresis. rewrite Hoff. f_equal. lia.
  - cbn [List.length] in Hlen. rewrite Nat2Z.inj_succ in Hlen.
    unfold HKG.rx_all in *. cbn [map fold_left].
    rewrite hkg_rx_bus2_counts_down by lia.
    rewrite IH; cbn [HKG.HKG_forward_bus2 HKG.HKG_LKAS_bus0_cnt].
    + f_equal. cbn [List.length]. lia.
    + exact Hoff.
    + lia.
Qed.

(** With the relay stopped and the hold count used up, the next receive of
    the watched address on bus 2 resumes the relay. *)
Lemma hkg_rx_bus2_resumes (d : list Byte.byte) (s : HKG.state) :
  HKG.HKG_forward_bus2 s = false ->
  HKG.HKG_LKAS_bus0_cnt s = 0 ->
  HKG.hysteresis (exec (HKG.default_rx_hook (lkas11 2 d)) s) = (true, 0).
Proof.
  destruct s as [f n g]. cbn. intros -> ->. reflexivity.
Qed.

(** C1, as the claim states it, fails: after a watched-address receive on
    bus 0 from the start state, the tenth watched-address receive on bus 2
    takes the hold count from 1 to 0 and leaves forwarding disabled. *)
Lemma hkg_tenth_bus2_rx_does_not_resume :
  HKG.hysteresis
    (HKG.rx_all (lkas11 0 [] :: repeat (lkas11 2 []) 10) (HKG.initial firmware0))
  = (false, 0)
  /\ HKG.HKG_forward_bus2
       (HKG.rx_all (lkas11 0 [] :: repeat (lkas11 2 []) 10) (HKG.initial firmware0))
     <> true.
Proof.
  split; [reflexivity | discriminate].
Qed.

(** C1, amended: from the start state (flag true, count 0), a receive of
    address 832 on bus 0 sets the count to 10 and the flag to false; each of
    the next ten receives of address 832 on bus 2 takes one off the count,
    down to 0, with the flag still false; the eleventh sets the flag back to
    true.  The list gives the flag and the count before the first receive
    and after each of the twelve; payloads and the other globals are
    arbitrary. *)
Theorem hkg_hysteresis_trace (g : firmware) (d0 : list Byte.byte)
  (d : nat -> list Byte.byte) :
  map HKG.hysteresis
    (HKG.rx_trace (lkas11 0 d0 :: map (fun k => lkas11 2 (d k)) (seq 0 11))
       (HKG.initial g))
  = [(true, 0);
     (false, 10);
     (false, 9); (false, 8); (false, 7); (false, 6); (false, 5);
     (false, 4); (false, 3); (false, 2); (false, 1); (false, 0);
     (true, 0)].
Proof.
  reflexivity.
Qed.

(** The effect of one receive on the whole state, case by case. *)
Lemma hkg_rx_exec (p : CANPacket_t) (s : HKG.state) :
  exec (HKG.default_rx_hook p) s =
  if pkt_addr p =? 832 then
    if pkt_bus p =? 0 then
      if HKG.HKG_forward_bus2 s
      then HKG.mkState false 10
             (exec (Firmware.puts HKG.msg_forwarding_disabled) (HKG.fw s))
      else HKG.mkState false 10 (HKG.fw s)
    else if pkt_bus p =? 2 then
      if HKG.HKG_LKAS_bus0_cnt s >? 0
      then HKG.mkState (HKG.HKG_forward_bus2 s) (HKG.HKG_LKAS_bus0_cnt s - 1)
             (HKG.fw s)
      else if HKG.HKG_forward_bus2 s then s
      else HKG.mkState true (HKG.HKG_LKAS_bus0_cnt s)
             (exec (Firmware.puts HKG.msg_forwarding_enabled) (HKG.fw s))
    else s
  else s.
Proof.
  destruct p as [b a d], s as [f n g], g as [ca rm cb out].
  run_hook; fields.
  destruct (a =? 832); [|reflexivity].
  destruct (Z.eqb_spec b 0) as [->|Hb0]; fields.
  - destruct f; reflexivity.
  - destruct (b =? 2); fields; [|reflexivity].
    destruct (n >? 0); fields; [reflexivity|].
    destruct f; reflexivity.
Qed.

(** C10: a frame whose address is not 832, and a frame with address 832
    on a bus other than 0 and 2, leave the flag and the hold count (and the
    rest of the state) as they were. *)
Theorem hkg_rx_frame_condition (p : CANPacket_t) (s : HKG.state) :
  GET_ADDR p <> 832 \/ (GET_BUS p <> 0 /\ GET_BUS p <> 2) ->
  exec (HKG.default_rx_hook p) s = s
  /\ HKG.HKG_forward_bus2 (exec (HKG.default_rx_hook p) s) = HKG.HKG_forward_bus2 s
  /\ HKG.HKG_LKAS_bus0_cnt (exec (HKG.default_rx_hook p) s) = HKG.HKG_LKAS_bus0_cnt s.
Proof.
  unfold GET_ADDR, GET_BUS. intros H.
  assert (E : exec (HKG.default_rx_hook p) s = s).
  { rewrite hkg_rx_exec.
    destruct (Z.eqb_spec (pkt_addr p) 832) as [Ha|Ha]; [|reflexivity].
    destruct H as [H|[H0 H2]]; [contradiction|].
    destruct (Z.eqb_spec (pkt_bus p) 0); [contradiction|].
    destruct (Z.eqb_spec (pkt_bus p) 2); [contradiction|reflexivity]. }
  rewrite E. repeat split.
Qed.

Lemma hkg_rx_frame_condition_witness :
  (let p := mkPacket 1 832 [] in
   let s := HKG.mkState false 7 firmware0 in
   (GET_ADDR p <> 832 \/ (GET_BUS p <> 0 /\ GET_BUS p <> 2))
   /\ exec (HKG.default_rx_hook p) s = s)
  /\ (let p := mkPacket 0 1157 [] in
      let s := HKG.initial firmware0 in
      (GET_ADDR p <> 832 \/ (GET_BUS p <> 0 /\ GET_BUS p <> 2))
      /\ exec (HKG.default_rx_hook p) s = s).
Proof.
  split; cbv zeta.
  - assert (H : GET_ADDR (mkPacket 1 832 []) <> 832
                \/ (GET_BUS (mkPacket 1 832 []) <> 0
                    /\ GET_BUS (mkPacket 1 832 []) <> 2)).
    { right. cbn. split; lia. }
    split; [exact H|].
    exact (proj1 (hkg_rx_frame_condition (mkPacket 1 832 [])
                    (HKG.mkState false 7 firmware0) H)).
  - assert (H : GET_ADDR (mkPacket 0 1157 []) <> 832
                \/ (GET_BUS (mkPacket 0 1157 []) <> 0
                    /\ GET_BUS (mkPacket 0 1157 []) <> 2)).
    { left. cbn. lia. }
    split; [exact H|].
    exact (proj1 (hkg_rx_frame_condition (mkPacket 0 1157 [])
                    (HKG.initial firmware0) H)).
Defined.

(** C7: the flag changes on an edge only.  A receive of address 832 on
    bus 0 takes the flag from true to false and writes one message; with the
    flag already false it sets the count to 10 and does nothing else.  A
    receive of address 832 on bus 2 with the count at 0 takes the flag from
    false to true and writes one message; with the flag already true it does
    nothing.  For every receive, the flag differs afterwards exactly in
    those two situations, and a message is written exactly when it does. *)
Theorem hkg_rx_forward_edge_triggered (p : CANPacket_t) (s : HKG.state)
  (d : list Byte.byte) (n : Z) (g : firmware) :
  let s' := exec (HKG.default_rx_hook p) s in
  exec (HKG.default_rx_hook (lkas11 0 d)) (HKG.mkState true n g)
  = HKG.mkState false 10 (exec (Firmware.puts HKG.msg_forwarding_disabled) g)
  /\ exec (HKG.default_rx_hook (lkas11 0 d)) (HKG.mkState false n g)
     = HKG.mkState false 10 g
  /\ exec (HKG.default_rx_hook (lkas11 2 d)) (HKG.mkState false 0 g)
     = HKG.mkState true 0 (exec (Firmware.puts HKG.msg_forwarding_enabled) g)
  /\ exec (HKG.default_rx_hook (lkas11 2 d)) (HKG.mkState true 0 g)
     = HKG.mkState true 0 g
  /\ negb (eqb (HKG.HKG_forward_bus2 s') (HKG.HKG_forward_bus2 s))
     = (GET_ADDR p =? 832)
       && (((GET_BUS p =? 0) && HKG.HKG_forward_bus2 s)
           || ((GET_BUS p =? 2) && (HKG.HKG_LKAS_bus0_cnt s <=? 0)
               && negb (HKG.HKG_forward_bus2 s)))
  /\ console (HKG.fw s')
     = console (HKG.fw s)
       ++ (if eqb (HKG.HKG_forward_bus2 s') (HKG.HKG_forward_bus2 s) then []
           else if HKG.HKG_forward_bus2 s' then [HKG.msg_forwarding_enabled]
           else [HKG.msg_forwarding_disabled]).
Proof.
  intros s'. subst s'.
  repeat (split; [rewrite hkg_rx_exec; reflexivity|]).
  rewrite hkg_rx_exec. unfold GET_ADDR, GET_BUS.
  destruct s as [f c g0], g0 as [ca rm cb out]; fields.
  destruct (pkt_addr p =? 832); cbn [andb];
    [|rewrite eqb_reflx, app_nil_r; split; reflexivity].
  destruct (Z.eqb_spec (pkt_bus p) 0) as [E0|N0].
  - rewrite E0. destruct f; cbn; rewrite ?app_nil_r; split; reflexivity.
  - destruct (pkt_bus p =? 2); cbn [andb orb];
      [|rewrite eqb_reflx, app_nil_r; split; reflexivity].
    rewrite Z.gtb_ltb, Z.leb_antisym.
    destruct (0 <? c); cbn [negb andb]; fields;
      [rewrite eqb_reflx, app_nil_r; split; reflexivity|].
    destruct f; cbn; rewrite ?app_nil_r; split; reflexivity.
Qed.

(** Every call into either safety mode keeps a hold count that is not
    negative. *)
Lemma hkg_step_cnt_nonneg (mc : HKG.mode * HKG.call) (s : HKG.state) :
  0 <= HKG.HKG_LKAS_bus0_cnt s ->
  0 <= HKG.HKG_LKAS_bus0_cnt (HKG.step s mc).
Proof.
  intros H. destruct mc as [m c]. unfold HKG.step. cbn [fst snd].
  destruct c as [param|p|p|l dt ln|b p].
  - destruct m, s as [f n g], g; exact H.
  - replace (rx (HKG.hooks_of m) p) with (HKG.default_rx_hook p)
      by (destruct m; reflexivity).
    rewrite hkg_rx_exec.
    repeat match goal with
           | |- context [if ?b then _ else _] => destruct b eqn:?
           end; fields; try assumption; try lia.
  - destruct m; exact H.
  - destruct m; exact H.
  - destruct m; exact H.
Qed.

Lemma hkg_run_cnt_nonneg (cs : list (HKG.mode * HKG.call)) :
  forall s : HKG.state,
    0 <= HKG.HKG_LKAS_bus0_cnt s ->
    0 <= HKG.HKG_LKAS_bus0_cnt (HKG.run cs s).
Proof.
  induction cs as [|c cs IH]; intros s H; cbn.
  - exact H.
  - apply IH. apply hkg_step_cnt_nonneg. exact H.
Qed.

(** C8: the hold count is never negative.  It starts at 0; after any
    sequence of calls into the hooks of either safety mode it is at least 0,
    and one more receive of any frame leaves it at least 0. *)
Theorem hkg_cnt_never_negative (g : firmware)
  (cs : list (HKG.mode * HKG.call)) (p : CANPacket_t) :
  HKG.HKG_LKAS_bus0_cnt (HKG.initial g) = 0
  /\ 0 <= HKG.HKG_LKAS_bus0_cnt (HKG.run cs (HKG.initial g))
  /\ 0 <= HKG.HKG_LKAS_bus0_cnt
            (exec (HKG.default_rx_hook p) (HKG.run cs (HKG.initial g))).
Proof.
  split; [reflexivity|].
  assert (H : 0 <= HKG.HKG_LKAS_bus0_cnt (HKG.run cs (HKG.initial g))).
  { apply hkg_run_cnt_nonneg. cbn. lia. }
  split; [exact H|].
  exact (hkg_step_cnt_nonneg (HKG.NoOutput, HKG.CallRx p) _ H).
Qed.

(** ** The forwarding router with hysteresis (safety_defaults_HKG.h) *)

(** The router reads the flag and writes nothing. *)
Lemma hkg_fwd_exec (bus_num : Z) (f : CANPacket_t) (s : HKG.state) :
  exec (HKG.default_fwd_hook bus_num f) s = s.
Proof. reflexivity. Qed.

(** C2: with the flag true, a frame from bus 0 goes to bus 2 and a frame from
    bus 2 goes to bus 0; with the flag false neither is forwarded; a frame
    from any other bus is never forwarded. *)
Theorem hkg_fwd_gated_by_flag (f : CANPacket_t) (s : HKG.state) :
  (HKG.HKG_forward_bus2 s = true ->
   result (HKG.default_fwd_hook 0 f) s = 2
   /\ result (HKG.default_fwd_hook 2 f) s = 0)
  /\ (HKG.HKG_forward_bus2 s = false ->
      result (HKG.default_fwd_hook 0 f) s = -1
      /\ result (HKG.default_fwd_hook 2 f) s = -1)
  /\ (forall bus_num : Z,
         bus_num <> 0 -> bus_num <> 2 ->
         result (HKG.default_fwd_hook bus_num f) s = -1).
Proof.
  destruct s as [fl n g]. run_hook; fields.
  split; [intros ->; split; reflexivity|].
  split; [intros ->; split; reflexivity|].
  intros b H0 H2.
  destruct fl; [|reflexivity].
  destruct (Z.eqb_spec b 0); [contradiction|].
  destruct (Z.eqb_spec b 2); [contradiction|reflexivity].
Qed.

Lemma hkg_fwd_gated_by_flag_witness :
  (result (HKG.default_fwd_hook 0 (mkPacket 0 832 [])) (HKG.initial firmware0) = 2
   /\ result (HKG.default_fwd_hook 2 (mkPacket 0 832 [])) (HKG.initial firmware0) = 0)
  /\ (result (HKG.default_fwd_hook 0 (mkPacket 2 1157 []))
        (HKG.mkState false 10 firmware0) = -1
      /\ result (HKG.default_fwd_hook 2 (mkPacket 2 1157 []))
           (HKG.mkState false 10 firmware0) = -1)
  /\ result (HKG.default_fwd_hook 1 (mkPacket 1 832 [])) (HKG.initial firmware0) = -1.
Proof.
  split; [|split].
  - apply (proj1 (hkg_fwd_gated_by_flag (mkPacket 0 832 []) (HKG.initial firmware0))).
    reflexivity.
  - apply (proj1 (proj2 (hkg_fwd_gated_by_flag (mkPacket 2 1157 [])
                           (HKG.mkState false 10 firmware0)))).
    reflexivity.
  - apply (proj2 (proj2 (hkg_fwd_gated_by_flag (mkPacket 1 832 [])
                           (HKG.initial firmware0)))); lia.
Defined.

(** C9: for one source bus and one value of the flag, the router gives the
    same destination for any two frames, in any two states. *)
Theorem hkg_fwd_noninterference (bus_num : Z) (f1 f2 : CANPacket_t)
  (s1 s2 : HKG.state) :
  HKG.HKG_forward_bus2 s1 = HKG.HKG_forward_bus2 s2 ->
  result (HKG.default_fwd_hook bus_num f1) s1
  = result (HKG.default_fwd_hook bus_num f2) s2.
Proof.
  intros H. run_hook. rewrite H. reflexivity.
Qed.

Lemma hkg_fwd_noninterference_witness :
  HKG.HKG_forward_bus2 (HKG.mkState true 0 firmware0)
  = HKG.HKG_forward_bus2 (HKG.mkState true 4 firmware0)
  /\ result (HKG.default_fwd_hook 2 (mkPacket 2 832 []))
       (HKG.mkState true 0 firmware0)
     = result (HKG.default_fwd_hook 2 (mkPacket 0 1157 [Byte.x01]))
         (HKG.mkState true 4 firmware0).
Proof.
  split; [reflexivity|].
  apply (hkg_fwd_noninterference 2 (mkPacket 2 832 [])
           (mkPacket 0 1157 [Byte.x01])
           (HKG.mkState true 0 firmware0) (HKG.mkState true 4 firmware0)).
  reflexivity.
Defined.

(** ** The plain forwarding router (safety_defaults_test.h) *)

(** C3: a frame from bus 0 goes to bus 2; a frame from bus 1 goes to bus 20;
    a frame from bus 2 is not forwarded when its address is 832 or 1157 and
    goes to bus 0 for every other address; a frame from any other bus is not
    forwarded. *)
Theorem test_fwd_routes (f : CANPacket_t) (g : Test.state) :
  result (Test.default_fwd_hook 0 f) g = 2
  /\ result (Test.default_fwd_hook 1 f) g = 20
  /\ (GET_ADDR f = 832 \/ GET_ADDR f = 1157 ->
      result (Test.default_fwd_hook 2 f) g = -1)
  /\ (GET_ADDR f <> 832 -> GET_ADDR f <> 1157 ->
      result (Test.default_fwd_hook 2 f) g = 0)
  /\ (forall bus_num : Z,
         bus_num <> 0 -> bus_num <> 1 -> bus_num <> 2 ->
         result (Test.default_fwd_hook bus_num f) g = -1).
Proof.
  run_hook. cbn [Z.eqb andb].
  split; [reflexivity|]. split; [reflexivity|].
  split; [|split].
  - intros [-> | ->]; reflexivity.
  - intros H1 H2.
    destruct (Z.eqb_spec (pkt_addr f) 832); [contradiction|].
    destruct (Z.eqb_spec (pkt_addr f) 1157); [contradiction|reflexivity].
  - intros b H0 H1 H2.
    destruct (Z.eqb_spec b 0); [contradiction|].
    destruct (Z.eqb_spec b 1); [contradiction|].
    destruct (Z.eqb_spec b 2); [contradiction|reflexivity].
Qed.

Lemma test_fwd_routes_witness :
  result (Test.default_fwd_hook 2 (mkPacket 2 832 [])) firmware0 = -1
  /\ result (Test.default_fwd_hook 2 (mkPacket 2 1157 [])) firmware0 = -1
  /\ result (Test.default_fwd_hook 2 (mkPacket 2 999 [])) firmware0 = 0
  /\ result (Test.default_fwd_hook 3 (mkPacket 3 999 [])) firmware0 = -1.
Proof.
  split; [|split; [|split]].
  - apply (proj1 (proj2 (proj2 (test_fwd_routes (mkPacket 2 832 []) firmware0)))).
    left; reflexivity.
  - apply (proj1 (proj2 (proj2 (test_fwd_routes (mkPacket 2 1157 []) firmware0)))).
    right; reflexivity.
  - apply (proj1 (proj2 (proj2 (proj2 (test_fwd_routes (mkPacket 2 999 []) firmware0)))));
      cbn; lia.
  - apply (proj2 (proj2 (proj2 (proj2 (test_fwd_routes (mkPacket 3 999 []) firmware0)))));
      lia.
Defined.

(** ** The two safety modes, in both files *)

(** C4: in the no output mode of both files, [tx] and [tx_lin] return false
    for every input and write nothing, and [init], whatever its parameter,
    leaves [controls_allowed] false and the relay-malfunction latch
    cleared. *)
Theorem nooutput_policy (param : Z) (p : CANPacket_t) (lin_num : Z)
  (data : list Byte.byte) (len : Z) (s : HKG.state) (g : Test.state) :
  (HKG.nooutput_hooks.(tx) p s = (C_false, s)
   /\ HKG.nooutput_hooks.(tx_lin) lin_num data len s = (C_false, s)
   /\ controls_allowed (HKG.fw (exec (HKG.nooutput_hooks.(init) param) s)) = false
   /\ relay_malfunction (HKG.fw (exec (HKG.nooutput_hooks.(init) param) s)) = false)
  /\ (Test.nooutput_hooks.(tx) p g = (C_false, g)
      /\ Test.nooutput_hooks.(tx_lin) lin_num data len g = (C_false, g)
      /\ controls_allowed (exec (Test.nooutput_hooks.(init) param) g) = false
      /\ relay_malfunction (exec (Test.nooutput_hooks.(init) param) g) = false).
Proof.
  split.
  - repeat split.
  - split; [reflexivity|]. split; [reflexivity|].
    destruct g as [ca rm [obd cm] out]. run_hook; fields.
    destruct obd; split; reflexivity.
Qed.

(** C5: in the all output mode of both files, [tx] and [tx_lin] return true
    for every input and write nothing, and [init], whatever its parameter,
    leaves [controls_allowed] true and the relay-malfunction latch
    cleared. *)
Theorem alloutput_policy (param : Z) (p : CANPacket_t) (lin_num : Z)
  (data : list Byte.byte) (len : Z) (s : HKG.state) (g : Test.state) :
  (HKG.alloutput_hooks.(tx) p s = (C_true, s)
   /\ HKG.alloutput_hooks.(tx_lin) lin_num data len s = (C_true, s)
   /\ controls_allowed (HKG.fw (exec (HKG.alloutput_hooks.(init) param) s)) = true
   /\ relay_malfunction (HKG.fw (exec (HKG.alloutput_hooks.(init) param) s)) = false)
  /\ (Test.alloutput_hooks.(tx) p g = (C_true, g)
      /\ Test.alloutput_hooks.(tx_lin) lin_num data len g = (C_true, g)
      /\ controls_allowed (exec (Test.alloutput_hooks.(init) param) g) = true
      /\ relay_malfunction (exec (Test.alloutput_hooks.(init) param) g) = false).
Proof.
  repeat split.
Qed.

(** A hook that ends in [return v] returns [v], whatever runs before. *)
Lemma result_then_ret {S A B : Type} (c : M S A) (v : B) (s : S) :
  result (c ;; ret v) s = v.
Proof.
  unfold result, bind, ret. destruct (c s); reflexivity.
Qed.

(** C6: the receive filter of either mode, in both files, returns true for
    every frame and every state. *)
Theorem rx_always_accepts (p : CANPacket_t) (s : HKG.state) (g : Test.state) :
  result (HKG.nooutput_hooks.(rx) p) s = C_true
  /\ result (HKG.alloutput_hooks.(rx) p) s = C_true
  /\ result (Test.nooutput_hooks.(rx) p) g = C_true
  /\ result (Test.alloutput_hooks.(rx) p) g = C_true
  /\ C_true <> C_false.
Proof.
  assert (H : result (HKG.default_rx_hook p) s = C_true)
    by apply result_then_ret.
  repeat split; try exact H. discriminate.
Qed.

(** * Further properties of the hysteresis (safety_defaults_HKG.h) *)

(** The hooks other than the receive filter leave the flag and the hold
    count alone. *)
Lemma hkg_step_not_rx (m : HKG.mode) (c : HKG.call) (s : HKG.state) :
  (forall p, c <> HKG.CallRx p) ->
  HKG.hysteresis (HKG.step s (m, c)) = HKG.hysteresis s.
Proof.
  intros Hc. destruct c as [param|p|p|l dt ln|b p].
  - destruct m, s as [f n g]; reflexivity.
  - exfalso. exact (Hc p eq_refl).
  - destruct m; reflexivity.
  - destruct m; reflexivity.
  - destruct m; reflexivity.
Qed.

Lemma hkg_step_rx (m : HKG.mode) (p : CANPacket_t) (s : HKG.state) :
  HKG.step s (m, HKG.CallRx p) = exec (HKG.default_rx_hook p) s.
Proof. destruct m; reflexivity. Qed.

(** What a receive does to the flag and the count depends on the flag and
    the count only. *)
Lemma hkg_rx_hysteresis_congr (p : CANPacket_t) (s1 s2 : HKG.state) :
  HKG.hysteresis s1 = HKG.hysteresis s2 ->
  HKG.hysteresis (exec (HKG.default_rx_hook p) s1)
  = HKG.hysteresis (exec (HKG.default_rx_hook p) s2).
Proof.
  destruct s1 as [f1 n1 g1], s2 as [f2 n2 g2]. unfold HKG.hysteresis at 1 2.
  fields. intros H. injection H as -> ->.
  rewrite !hkg_rx_exec. fields.
  repeat match goal with
         | |- context [if ?b then _ else _] => destruct b
         end; reflexivity.
Qed.

Lemma hkg_run_hysteresis (cs : list (HKG.mode * HKG.call)) :
  forall s1 s2 : HKG.state,
    HKG.hysteresis s1 = HKG.hysteresis s2 ->
    HKG.hysteresis (HKG.run cs s1)
    = HKG.hysteresis (HKG.rx_all (rx_frames cs) s2).
Proof.
  induction cs as [|[m c] cs IH]; intros s1 s2 H.
  - exact H.
  - unfold HKG.run, HKG.rx_all in *. cbn [fold_left rx_frames flat_map snd].
    destruct c as [param|p|p|l dt ln|b p]; cbn [app fold_left];
      try (apply IH; rewrite hkg_step_not_rx by discriminate; exact H).
    apply IH. rewrite hkg_step_rx. apply hkg_rx_hysteresis_congr. exact H.
Qed.

(** X3: the flag and the hold count after any sequence of calls into the
    hooks are those after the receives of that sequence alone: [init], [tx],
    [tx_lin] and [fwd] of either mode never change them. *)
Theorem hkg_hysteresis_only_rx (cs : list (HKG.mode * HKG.call))
  (s : HKG.state) :
  HKG.hysteresis (HKG.run cs s)
  = HKG.hysteresis (HKG.rx_all (rx_frames cs) s).
Proof.
  apply hkg_run_hysteresis. reflexivity.
Qed.

(** A frame that is not watched leaves the whole state as it was. *)
Lemma hkg_rx_unwatched (p : CANPacket_t) (s : HKG.state) :
  watched p = false -> exec (HKG.default_rx_hook p) s = s.
Proof.
  unfold watched, GET_ADDR, GET_BUS. intros H. rewrite hkg_rx_exec.
  destruct (pkt_addr p =? 832); [|reflexivity].
  destruct (pkt_bus p =? 0); [discriminate|].
  destruct (pkt_bus p =? 2); [discriminate|reflexivity].
Qed.

(** X4: in a sequence of receives, the frames that are not watched (another
    address, or address 832 on a bus other than 0 and 2) can be left out:
    the state at the end is the same, console included. *)
Theorem hkg_rx_all_skips_unwatched (ps : list CANPacket_t) :
  forall s : HKG.state,
    HKG.rx_all ps s = HKG.rx_all (filter watched ps) s.
Proof.
  unfold HKG.rx_all.
  induction ps as [|p ps IH]; intros s; cbn [fold_left filter].
  - reflexivity.
  - destruct (watched p) eqn:W; cbn [fold_left].
    + apply IH.
    + rewrite hkg_rx_unwatched by exact W. apply IH.
Qed.

(** One receive keeps the hold count within its window and at 0 while the
    relay runs. *)
Lemma hkg_rx_hold_invariant (p : CANPacket_t) (s : HKG.state) :
  hold_invariant s -> hold_invariant (exec (HKG.default_rx_hook p) s).
Proof.
  unfold hold_invariant. intros [Hr Hz]. rewrite hkg_rx_exec.
  destruct (pkt_addr p =? 832); [|auto].
  destruct (pkt_bus p =? 0).
  - destruct (HKG.HKG_forward_bus2 s); fields; (split; [lia | intros Hf; discriminate Hf]).
  - destruct (pkt_bus p =? 2); [|auto].
    destruct (Z.gtb_spec (HKG.HKG_LKAS_bus0_cnt s) 0) as [Hpos|Hle].
    + fields. split; [lia|]. intros Hf. specialize (Hz Hf). lia.
    + destruct (HKG.HKG_forward_bus2 s) eqn:Hf; [auto|].
      fields. split; [lia|]. intros _. lia.
Qed.

Lemma hkg_step_hold_invariant (mc : HKG.mode * HKG.call) (s : HKG.state) :
  hold_invariant s -> hold_invariant (HKG.step s mc).
Proof.
  destruct mc as [m c]. intros H.
  assert (T : forall c',
             (forall p, c' <> HKG.CallRx p) ->
             hold_invariant (HKG.step s (m, c'))).
  { intros c' Hc. pose proof (hkg_step_not_rx m c' s Hc) as E.
    unfold HKG.hysteresis in E. injection E as Ef En.
    unfold hold_invariant. rewrite Ef, En. exact H. }
  destruct c as [param|p|p|l dt ln|b p];
    try (apply T; discriminate).
  rewrite hkg_step_rx. apply hkg_rx_hold_invariant. exact H.
Qed.

Lemma hkg_run_hold_invariant (cs : list (HKG.mode * HKG.call)) :
  forall s : HKG.state, hold_invariant s -> hold_invariant (HKG.run cs s).
Proof.
  unfold HKG.run.
  induction cs as [|c cs IH]; intros s H; cbn [fold_left].
  - exact H.
  - apply IH, hkg_step_hold_invariant, H.
Qed.

Lemma hkg_initial_hold_invariant (g : firmware) :
  hold_invariant (HKG.initial g).
Proof.
  unfold hold_invariant. cbn. split; [lia|reflexivity].
Qed.

(** X1: the hold count never exceeds the hold value 10, after any sequence
    of calls from the start state; with it the [int] counter stays far from
    its bounds. *)
Theorem hkg_cnt_at_most_hold (g : firmware)
  (cs : list (HKG.mode * HKG.call)) :
  HKG.HKG_LKAS_bus0_cnt (HKG.run cs (HKG.initial g)) <= 10.
Proof.
  destruct (hkg_run_hold_invariant cs _ (hkg_initial_hold_invariant g))
    as [Hr _].
  lia.
Qed.

(** X2: after any sequence of calls from the start state, while the hold
    count is positive the relay is stopped: the flag is false and the router
    forwards no frame from any bus. *)
Theorem hkg_hold_blocks_forwarding (g : firmware)
  (cs : list (HKG.mode * HKG.call)) (bus_num : Z) (f : CANPacket_t) :
  0 < HKG.HKG_LKAS_bus0_cnt (HKG.run cs (HKG.initial g)) ->
  HKG.HKG_forward_bus2 (HKG.run cs (HKG.initial g)) = false
  /\ result (HKG.default_fwd_hook bus_num f) (HKG.run cs (HKG.initial g)) = -1.
Proof.
  intros Hpos.
  destruct (hkg_run_hold_invariant cs _ (hkg_initial_hold_invariant g))
    as [_ Hz].
  assert (Hf : HKG.HKG_forward_bus2 (HKG.run cs (HKG.initial g)) = false).
  { destruct (HKG.HKG_forward_bus2 (HKG.run cs (HKG.initial g)));
      [specialize (Hz eq_refl); lia | reflexivity]. }
  split; [exact Hf|].
  run_hook. rewrite Hf. reflexivity.
Qed.

Lemma hkg_hold_blocks_forwarding_witness :
  let cs := [(HKG.NoOutput, HKG.CallInit 0);
             (HKG.NoOutput, HKG.CallRx (lkas11 0 []));
             (HKG.NoOutput, HKG.CallRx (lkas11 2 []))] in
  0 < HKG.HKG_LKAS_bus0_cnt (HKG.run cs (HKG.initial firmware0))
  /\ HKG.HKG_forward_bus2 (HKG.run cs (HKG.initial firmware0)) = false
  /\ result (HKG.default_fwd_hook 0 (mkPacket 0 100 []))
       (HKG.run cs (HKG.initial firmware0)) = -1.
Proof.
  cbv zeta. split; [reflexivity|].
  apply (hkg_hold_blocks_forwarding firmware0
           [(HKG.NoOutput, HKG.CallInit 0);
            (HKG.NoOutput, HKG.CallRx (lkas11 0 []));
            (HKG.NoOutput, HKG.CallRx (lkas11 2 []))]
           0 (mkPacket 0 100 [])).
  reflexivity.
Defined.

Lemma hkg_rx_all_cons (p : CANPacket_t) (ps : list CANPacket_t)
  (s : HKG.state) :
  HKG.rx_all (p :: ps) s = HKG.rx_all ps (exec (HKG.default_rx_hook p) s).
Proof. reflexivity. Qed.

(** X5: the hold window.  From any state, a receive of address 832 on bus 0
    followed by [k <= 10] receives of address 832 on bus 2 leaves the flag
    false and the hold count at [10 - k], and the router then forwards no
    frame from any bus. *)
Theorem hkg_hold_window (s : HKG.state) (d0 : list Byte.byte)
  (ds : list (list Byte.byte)) (bus_num : Z) (f : CANPacket_t) :
  (List.length ds <= 10)%nat ->
  HKG.hysteresis (HKG.rx_all (lkas11 0 d0 :: map (lkas11 2) ds) s)
  = (false, 10 - Z.of_nat (List.length ds))
  /\ result (HKG.default_fwd_hook bus_num f)
       (HKG.rx_all (lkas11 0 d0 :: map (lkas11 2) ds) s) = -1.
Proof.
  intros Hk. rewrite hkg_rx_all_cons.
  pose proof (hkg_rx_bus0_arms d0 s) as Harm.
  set (s1 := exec (HKG.default_rx_hook (lkas11 0 d0)) s) in *.
  unfold HKG.hysteresis in Harm. injection Harm as Hf Hn.
  assert (H : HKG.hysteresis (HKG.rx_all (map (lkas11 2) ds) s1)
              = (false, 10 - Z.of_nat (List.length ds))).
  { rewrite hkg_rx_bus2_hold; [rewrite Hn; reflexivity | exact Hf | lia]. }
  split; [exact H|].
  unfold HKG.hysteresis in H. injection H as Hf' _.
  run_hook. rewrite Hf'. reflexivity.
Qed.

Lemma hkg_hold_window_witness :
  (List.length [[Byte.x00]; []; [Byte.xff]] <= 10)%nat
  /\ HKG.hysteresis
       (HKG.rx_all (lkas11 0 [] :: map (lkas11 2) [[Byte.x00]; []; [Byte.xff]])
          (HKG.mkState true 3 firmware0))
     = (false, 7)
  /\ result (HKG.default_fwd_hook 2 (mkPacket 2 1157 []))
       (HKG.rx_all (lkas11 0 [] :: map (lkas11 2) [[Byte.x00]; []; [Byte.xff]])
          (HKG.mkState true 3 firmware0)) = -1.
Proof.
  assert (H : (List.length [[Byte.x00]; []; [Byte.xff]] <= 10)%nat)
    by (cbn; lia).
  split; [exact H|].
  exact (hkg_hold_window (HKG.mkState true 3 firmware0) []
           [[Byte.x00]; []; [Byte.xff]] 2 (mkPacket 2 1157 []) H).
Defined.

(** With the relay running and the hold count at 0, a frame other than
    address 832 on bus 0 leaves the whole state as it was. *)
Lemma hkg_rx_stable (p : CANPacket_t) (s : HKG.state) :
  HKG.HKG_forward_bus2 s = true ->
  HKG.HKG_LKAS_bus0_cnt s = 0 ->
  lkas11_on_bus0 p = false ->
  exec (HKG.default_rx_hook p) s = s.
Proof.
  unfold lkas11_on_bus0, GET_ADDR, GET_BUS. intros Hf Hn Hp.
  rewrite hkg_rx_exec, Hf, Hn.
  destruct (pkt_addr p =? 832); [|reflexivity].
  destruct (pkt_bus p =? 0); [discriminate|].
  destruct (pkt_bus p =? 2); reflexivity.
Qed.

Lemma hkg_rx_all_stable (ps : list CANPacket_t) (s : HKG.state) :
  HKG.HKG_forward_bus2 s = true ->
  HKG.HKG_LKAS_bus0_cnt s = 0 ->
  forallb (fun p => negb (lkas11_on_bus0 p)) ps = true ->
  HKG.rx_all ps s = s.
Proof.
  intros Hf Hn. induction ps as [|p ps IH]; intros Hps.
  - reflexivity.
  - cbn [forallb] in Hps. apply andb_prop in Hps as [Hp Hps].
    rewrite hkg_rx_all_cons, hkg_rx_stable; auto.
    now apply negb_true_iff.
Qed.

(** X7: the relay is stopped by address 832 on bus 0 only.  With the flag
    true and the hold count at 0, any sequence of receives with no such
    frame leaves the whole state as it was, and the router goes on
    forwarding between bus 0 and bus 2. *)
Theorem hkg_enabled_is_stable (ps : list CANPacket_t) (s : HKG.state)
  (f : CANPacket_t) :
  HKG.HKG_forward_bus2 s = true ->
  HKG.HKG_LKAS_bus0_cnt s = 0 ->
  forallb (fun p => negb (lkas11_on_bus0 p)) ps = true ->
  HKG.rx_all ps s = s
  /\ result (HKG.default_fwd_hook 0 f) (HKG.rx_all ps s) = 2
  /\ result (HKG.default_fwd_hook 2 f) (HKG.rx_all ps s) = 0.
Proof.
  intros Hf Hn Hps. rewrite (hkg_rx_all_stable ps s Hf Hn Hps).
  split; [reflexivity|].
  run_hook. rewrite Hf. split; reflexivity.
Qed.

Lemma hkg_enabled_is_stable_witness :
  let ps := [lkas11 2 []; mkPacket 0 1157 []; lkas11 1 []; lkas11 2 [Byte.x01]] in
  HKG.rx_all ps (HKG.initial firmware0) = HKG.initial firmware0
  /\ result (HKG.default_fwd_hook 0 (lkas11 0 []))
       (HKG.rx_all ps (HKG.initial firmware0)) = 2
  /\ result (HKG.default_fwd_hook 2 (lkas11 0 []))
       (HKG.rx_all ps (HKG.initial firmware0)) = 0.
Proof.
  cbv zeta.
  apply (hkg_enabled_is_stable
           [lkas11 2 []; mkPacket 0 1157 []; lkas11 1 []; lkas11 2 [Byte.x01]]
           (HKG.initial firmware0) (lkas11 0 [])); reflexivity.
Defined.

Lemma hkg_rx_bus2_idle_all (ds : list (list Byte.byte)) (s : HKG.state) :
  HKG.HKG_forward_bus2 s = true ->
  HKG.HKG_LKAS_bus0_cnt s = 0 ->
  HKG.rx_all (map (lkas11 2) ds) s = s.
Proof.
  intros Hf Hn. apply hkg_rx_all_stable; [exact Hf | exact Hn |].
  induction ds as [|d ds IH]; [reflexivity | exact IH].
Qed.

(** X6: the relay resumes.  From any state with a hold count [c >= 0],
    more than [c] receives of address 832 on bus 2 in a row leave the flag
    true and the hold count at 0. *)
Theorem hkg_resume_after_hold (ds : list (list Byte.byte)) :
  forall s : HKG.state,
    0 <= HKG.HKG_LKAS_bus0_cnt s ->
    HKG.HKG_LKAS_bus0_cnt s < Z.of_nat (List.length ds) ->
    HKG.hysteresis (HKG.rx_all (map (lkas11 2) ds) s) = (true, 0).
Proof.
  induction ds as [|d ds IH]; intros s Hlo Hlen.
  - cbn in Hlen. lia.
  - cbn [List.length] in Hlen. rewrite Nat2Z.inj_succ in Hlen.
    cbn [map]. rewrite hkg_rx_all_cons.
    destruct (Z.eq_dec (HKG.HKG_LKAS_bus0_cnt s) 0) as [Hz|Hnz].
    + assert (H1 : HKG.hysteresis (exec (HKG.default_rx_hook (lkas11 2 d)) s)
                   = (true, 0)).
      { rewrite hkg_rx_exec. cbn [lkas11 pkt_addr pkt_bus Z.eqb Pos.eqb].
        rewrite Hz. cbn [Z.gtb Z.compare].
        destruct s as [[|] n g]; cbn in Hz; subst n; reflexivity. }
      unfold HKG.hysteresis in H1. injection H1 as Hf Hn.
      rewrite hkg_rx_bus2_idle_all by assumption.
      unfold HKG.hysteresis. rewrite Hf, Hn. reflexivity.
    + rewrite hkg_rx_bus2_counts_down by lia.
      apply IH; cbn [HKG.HKG_LKAS_bus0_cnt]; lia.
Qed.

Lemma hkg_resume_after_hold_witness :
  0 <= HKG.HKG_LKAS_bus0_cnt (HKG.mkState false 2 firmware0)
  /\ HKG.HKG_LKAS_bus0_cnt (HKG.mkState false 2 firmware0)
     < Z.of_nat (List.length [[]; [Byte.x01]; []])
  /\ HKG.hysteresis
       (HKG.rx_all (map (lkas11 2) [[]; [Byte.x01]; []])
          (HKG.mkState false 2 firmware0))
     = (true, 0).
Proof.
  assert (H0 : 0 <= HKG.HKG_LKAS_bus0_cnt (HKG.mkState false 2 firmware0))
    by (cbn; lia).
  assert (H1 : HKG.HKG_LKAS_bus0_cnt (HKG.mkState false 2 firmware0)
               < Z.of_nat (List.length [[]; [Byte.x01]; []]))
    by (cbn; lia).
  split; [exact H0|]. split; [exact H1|].
  exact (hkg_resume_after_hold [[]; [Byte.x01]; []]
           (HKG.mkState false 2 firmware0) H0 H1).
Defined.

(** ** The console and the latches (safety_defaults_HKG.h) *)

Lemma hkg_rx_console_tracks (before : list string) (p : CANPacket_t)
  (s : HKG.state) :
  console_tracks_flag before s ->
  console_tracks_flag before (exec (HKG.default_rx_hook p) s).
Proof.
  intros [l [Hc Hl]]. rewrite hkg_rx_exec.
  assert (Same : console_tracks_flag before s) by (exists l; auto).
  assert (Push : forall (v : bool) (n : Z) (m : string),
             m = (if v then HKG.msg_forwarding_enabled
                  else HKG.msg_forwarding_disabled) ->
             console_tracks_flag before
               (HKG.mkState v n (exec (Firmware.puts m) (HKG.fw s)))).
  { intros v n m ->. exists (l ++ [if v then HKG.msg_forwarding_enabled
                                   else HKG.msg_forwarding_disabled]).
    fields. split.
    - cbn. rewrite Hc, app_assoc. reflexivity.
    - apply last_last. }
  destruct (pkt_addr p =? 832); [|exact Same].
  destruct (pkt_bus p =? 0).
  - destruct (HKG.HKG_forward_bus2 s) eqn:Hf; [apply Push; reflexivity|].
    exists l. fields. auto.
  - destruct (pkt_bus p =? 2); [|exact Same].
    destruct (HKG.HKG_LKAS_bus0_cnt s >? 0).
    + exists l. fields. auto.
    + destruct (HKG.HKG_forward_bus2 s) eqn:Hf; [exact Same|].
      apply Push. reflexivity.
Qed.

Lemma hkg_step_console_tracks (before : list string)
  (mc : HKG.mode * HKG.call) (s : HKG.state) :
  console_tracks_flag before s ->
  console_tracks_flag before (HKG.step s mc).
Proof.
  destruct mc as [m c]. intros H.
  destruct c as [param|p|p|l dt ln|b p].
  - destruct H as [l [Hc Hl]]. exists l.
    destruct m, s as [f n g], g as [ca rm cb out]; split; assumption.
  - rewrite hkg_step_rx. apply hkg_rx_console_tracks. exact H.
  - destruct m; exact H.
  - destruct m; exact H.
  - destruct m; exact H.
Qed.

(** X8: the console tells the state of the relay.  After any sequence of
    calls from the start state, the text written since the start is empty or
    ends in the message of the last change, and that message names the
    value of the flag: enabled when it is true, disabled when it is false.
    The two messages differ. *)
Theorem hkg_console_tracks_flag (g : firmware)
  (cs : list (HKG.mode * HKG.call)) :
  console_tracks_flag (console g) (HKG.run cs (HKG.initial g))
  /\ HKG.msg_forwarding_enabled <> HKG.msg_forwarding_disabled.
Proof.
  split; [|discriminate].
  assert (G : forall s, console_tracks_flag (console g) s ->
                        console_tracks_flag (console g) (HKG.run cs s)).
  { unfold HKG.run. induction cs as [|c cs IH]; intros s H; cbn [fold_left].
    - exact H.
    - apply IH, hkg_step_console_tracks, H. }
  apply G. exists []. cbn. rewrite app_nil_r. split; reflexivity.
Qed.

(** X9: the receive filter never grants or withdraws control.  In
    safety_defaults_HKG.h it leaves [controls_allowed], the relay-malfunction
    latch and the board as they were, for every frame and state; in
    safety_defaults_test.h it leaves the whole state as it was. *)
Theorem rx_preserves_latches (p : CANPacket_t) (s : HKG.state)
  (g : Test.state) :
  controls_allowed (HKG.fw (exec (HKG.default_rx_hook p) s))
  = controls_allowed (HKG.fw s)
  /\ relay_malfunction (HKG.fw (exec (HKG.default_rx_hook p) s))
     = relay_malfunction (HKG.fw s)
  /\ current_board (HKG.fw (exec (HKG.default_rx_hook p) s))
     = current_board (HKG.fw s)
  /\ exec (Test.default_rx_hook p) g = g.
Proof.
  rewrite hkg_rx_exec.
  repeat match goal with
         | |- context [if ?b then _ else _] => destruct b
         end; repeat split.
Qed.

(** X11: in safety_defaults_HKG.h, [init] and the receive filter of a mode
    write different globals, so their order does not matter: [init] after a
    receive gives the state of the receive after [init]. *)
Theorem hkg_init_rx_commute (m : HKG.mode) (param : Z) (p : CANPacket_t)
  (s : HKG.state) :
  exec (init (HKG.hooks_of m) param) (exec (rx (HKG.hooks_of m) p) s)
  = exec (rx (HKG.hooks_of m) p) (exec (init (HKG.hooks_of m) param) s).
Proof.
  replace (rx (HKG.hooks_of m) p) with (HKG.default_rx_hook p)
    by (destruct m; reflexivity).
  rewrite !hkg_rx_exec.
  destruct s as [f n g], g as [ca rm cb out].
  destruct m; run_hook; fields;
    repeat match goal with
           | |- context [if ?b then _ else _] => destruct b
           end; reflexivity.
Qed.

(** * Further properties of [init] and of the routers *)

(** X10: the CAN mode set by the no output mode of safety_defaults_test.h
    outlives a switch of mode.  [nooutput_init] puts a board with OBD into
    [CAN_MODE_OBD_CAN2] and writes one message, and leaves the board and the
    console of a board without OBD as they were; [alloutput_init] after it
    changes neither the board nor the console, and sets [controls_allowed]
    to true. *)
Theorem test_obd_mode_survives_mode_switch (g : Test.state) (p1 p2 : Z) :
  let g1 := exec (Test.nooutput_init p1) g in
  let g2 := exec (Test.alloutput_init p2) g1 in
  current_board g1
  = mkBoard (has_obd (current_board g))
      (if has_obd (current_board g) then CAN_MODE_OBD_CAN2
       else can_mode (current_board g))
  /\ console g1
     = console g ++ (if has_obd (current_board g) then [msg_can_mode_obd]
                     else [])
  /\ current_board g2 = current_board g1
  /\ console g2 = console g1
  /\ controls_allowed g1 = false
  /\ controls_allowed g2 = true.
Proof.
  destruct g as [ca rm [obd cm] out]. cbv zeta. run_hook; fields.
  destruct obd; cbn [fst snd]; fields; rewrite ?app_nil_r; repeat split.
Qed.

(** X12: [init] again.  In safety_defaults_HKG.h a second [init] of the same
    mode, with any parameter, returns the empty table of checks and changes
    nothing; so does [alloutput_init] of safety_defaults_test.h.  A second
    [nooutput_init] of safety_defaults_test.h changes nothing on a board
    without OBD, and on a board with OBD writes its message once more and
    changes nothing else. *)
Theorem init_twice (m : HKG.mode) (p1 p2 : Z) (s : HKG.state)
  (g : Test.state) :
  init (HKG.hooks_of m) p2 (exec (init (HKG.hooks_of m) p1) s)
  = (mkAddrChecks NULL 0, exec (init (HKG.hooks_of m) p1) s)
  /\ Test.alloutput_init p2 (exec (Test.alloutput_init p1) g)
     = (mkAddrChecks NULL 0, exec (Test.alloutput_init p1) g)
  /\ Test.nooutput_init p2 (exec (Test.nooutput_init p1) g)
     = (mkAddrChecks NULL 0,
        if has_obd (current_board g)
        then exec (Firmware.puts msg_can_mode_obd)
               (exec (Test.nooutput_init p1) g)
        else exec (Test.nooutput_init p1) g).
Proof.
  split; [destruct m; reflexivity|].
  split; [reflexivity|].
  destruct g as [ca rm [obd cm] out]. run_hook; fields.
  destruct obd; reflexivity.
Qed.

(** X13: no echo.  For a source bus that is not negative, neither router
    returns the source bus as the destination. *)
Theorem fwd_never_to_source (bus_num : Z) (f : CANPacket_t) (s : HKG.state)
  (g : Test.state) :
  0 <= bus_num ->
  result (HKG.default_fwd_hook bus_num f) s <> bus_num
  /\ result (Test.default_fwd_hook bus_num f) g <> bus_num.
Proof.
  intros Hb. run_hook.
  destruct (Z.eqb_spec bus_num 0) as [->|N0];
    [split; [destruct (HKG.HKG_forward_bus2 s)|]; discriminate|].
  destruct (Z.eqb_spec bus_num 1) as [->|N1];
    [split; [destruct (HKG.HKG_forward_bus2 s)|]; discriminate|].
  destruct (Z.eqb_spec bus_num 2) as [->|N2].
  - split; [destruct (HKG.HKG_forward_bus2 s); discriminate|].
    cbn [andb]. destruct (negb (pkt_addr f =? 832) && negb (pkt_addr f =? 1157));
      discriminate.
  - cbn [andb]. split; [destruct (HKG.HKG_forward_bus2 s)|]; lia.
Qed.

Lemma fwd_never_to_source_witness :
  0 <= 2
  /\ result (HKG.default_fwd_hook 2 (lkas11 2 [])) (HKG.initial firmware0) <> 2
  /\ result (Test.default_fwd_hook 2 (lkas11 2 [])) firmware0 <> 2.
Proof.
  assert (H : 0 <= 2) by lia.
  split; [exact H|].
  exact (fwd_never_to_source 2 (lkas11 2 []) (HKG.initial firmware0)
           firmware0 H).
Defined.

(** X14: the two routers compared.  While the flag is true, the router of
    safety_defaults_HKG.h gives the destination of the router of
    safety_defaults_test.h for every source bus but 1 and every frame but
    those from bus 2 with address 832 or 1157; such a frame it forwards to
    bus 0, where the other router forwards it nowhere, and a frame from
    bus 1 it forwards nowhere, where the other router forwards it to
    bus 20. *)
Theorem fwd_variants_agree (bus_num : Z) (f : CANPacket_t) (s : HKG.state)
  (g : Test.state) :
  HKG.HKG_forward_bus2 s = true ->
  (bus_num <> 1 ->
   (bus_num = 2 -> GET_ADDR f <> 832 /\ GET_ADDR f <> 1157) ->
   result (HKG.default_fwd_hook bus_num f) s
   = result (Test.default_fwd_hook bus_num f) g)
  /\ (GET_ADDR f = 832 \/ GET_ADDR f = 1157 ->
      result (HKG.default_fwd_hook 2 f) s = 0
      /\ result (Test.default_fwd_hook 2 f) g = -1)
  /\ (result (HKG.default_fwd_hook 1 f) s = -1
      /\ result (Test.default_fwd_hook 1 f) g = 20).
Proof.
  intros Hf. run_hook. rewrite Hf. unfold GET_ADDR.
  split; [|split; [|split; reflexivity]].
  - intros N1 H2.
    destruct (Z.eqb_spec bus_num 0) as [->|N0]; [reflexivity|].
    destruct (Z.eqb_spec bus_num 1) as [E1|_]; [contradiction|].
    destruct (Z.eqb_spec bus_num 2) as [E2|N2]; [|reflexivity].
    destruct (H2 E2) as [Ha Hb].
    destruct (Z.eqb_spec (pkt_addr f) 832); [contradiction|].
    destruct (Z.eqb_spec (pkt_addr f) 1157); [contradiction|reflexivity].
  - intros [-> | ->]; split; reflexivity.
Qed.

Lemma fwd_variants_agree_witness :
  (result (HKG.default_fwd_hook 2 (mkPacket 2 999 [])) (HKG.initial firmware0)
   = result (Test.default_fwd_hook 2 (mkPacket 2 999 [])) firmware0)
  /\ (result (HKG.default_fwd_hook 2 (lkas11 2 [])) (HKG.initial firmware0) = 0
      /\ result (Test.default_fwd_hook 2 (lkas11 2 [])) firmware0 = -1).
Proof.
  assert (Hf : HKG.HKG_forward_bus2 (HKG.initial firmware0) = true)
    by reflexivity.
  split.
  - apply (proj1 (fwd_variants_agree 2 (mkPacket 2 999 [])
                    (HKG.initial firmware0) firmware0 Hf)).
    + lia.
    + intros _. cbn. split; lia.
  - apply (proj1 (proj2 (fwd_variants_agree 2 (lkas11 2 [])
                           (HKG.initial firmware0) firmware0 Hf))).
    left. reflexivity.
Defined.

(** X15: the destinations.  The router of safety_defaults_HKG.h returns -1,
    0 or 2 and no other value; the router of safety_defaults_test.h returns
    -1, 0, 2 or 20 and no other value, and the same one in every state.
    Neither writes a global. *)
Theorem fwd_destinations (bus_num : Z) (f : CANPacket_t) (s : HKG.state)
  (g g' : Test.state) :
  In (result (HKG.default_fwd_hook bus_num f) s) [-1; 0; 2]
  /\ In (result (Test.default_fwd_hook bus_num f) g) [-1; 0; 2; 20]
  /\ result (Test.default_fwd_hook bus_num f) g
     = result (Test.default_fwd_hook bus_num f) g'
  /\ exec (HKG.default_fwd_hook bus_num f) s = s
  /\ exec (Test.default_fwd_hook bus_num f) g = g.
Proof.
  split; [|split; [|repeat split]].
  - run_hook.
    destruct (HKG.HKG_forward_bus2 s), (bus_num =? 0), (bus_num =? 2);
      cbn; auto.
  - run_hook.
    destruct (bus_num =? 0), (bus_num =? 1), (bus_num =? 2),
      (pkt_addr f =? 832), (pkt_addr f =? 1157); cbn; auto 6.
Qed.
